(** * Mergington High School activities API (src/app.py)

    A shallow embedding of the request handlers of [src/app.py] and of
    the two JSON documents they read and write, followed by the
    properties of the roster that the handlers guarantee.

    Conventions of the embedding.
    - A parsed JSON document is a [jval]; a Python [dict] with string
      keys is a [gmap string _]; a Python [list] is a [list].
    - [json.load] and [json.dump] are taken as inverse to each other on
      such values, so a file on disk is represented by the value it
      holds ([None] when the file does not exist).
    - The module globals [activities] and [_teacher_sessions] and the two
      files form the [state]; every handler maps a state to a response
      and a new state.
    - The order of the keys of a dict, which shows only in the text of a
      serialized document, is not kept.
    - The entries of [teachers.json] are dicts whose values are strings,
      as the credential file is laid out; the request payload and the
      activity records hold arbitrary JSON values.
    - [str(uuid.uuid4())] is an input of the login handler.
    - A Python exception that no handler catches ends the request with
      status 500. *)

From Stdlib Require Import ZArith Floats.
From stdpp Require Import gmap strings list fin_maps.

Open Scope string_scope.
#[local] Set Warnings "-register-all".

(** ** JSON values *)

Inductive jval : Type :=
| JNull
| JBool (b : bool)
| JInt (n : Z)
| JFloat (f : float)
| JStr (s : string)
| JArr (l : list jval)
| JObj (kvs : list (string * jval)).

(** Python truth value of a parsed JSON value ([not v] is its negation). *)
Definition truthy (v : jval) : bool :=
  match v with
  | JNull => false
  | JBool b => b
  | JInt n => negb (n =? 0)%Z
  | JFloat f => negb (PrimFloat.is_zero f)
  | JStr s => negb (String.eqb s "")
  | JArr l => negb (Nat.eqb (length l) 0)
  | JObj kvs => negb (Nat.eqb (length kvs) 0)
  end.

(** [d.get(k)]: the value under [k], or [None] (JSON null). *)
Definition py_get (d : gmap string jval) (k : string) : jval :=
  default JNull (d !! k).

(** [d.get(k, dflt)]. *)
Definition py_get_default (d : gmap string jval) (k : string) (dflt : jval) : jval :=
  default dflt (d !! k).

(** [d.setdefault(k, dflt)]: the value found, and the dict afterwards. *)
Definition setdefault (d : gmap string jval) (k : string) (dflt : jval)
  : jval * gmap string jval :=
  match d !! k with
  | Some v => (v, d)
  | None => (dflt, <[k := dflt]> d)
  end.

(** [x == email] for an element [x] of a parsed list and a [str] email. *)
Definition eq_str (email : string) (x : jval) : bool :=
  match x with
  | JStr s => String.eqb s email
  | _ => false
  end.

(** [sub in s] on two strings: substring test. *)
Fixpoint str_contains (s sub : string) : bool :=
  String.prefix sub s ||
  match s with
  | EmptyString => false
  | String _ s' => str_contains s' sub
  end.

(** [email in v]: membership for a list, substring for a string, key
    membership for an object; the other values are not iterable
    ([TypeError], rendered as [None]). *)
Definition py_in (email : string) (v : jval) : option bool :=
  match v with
  | JArr l => Some (existsb (eq_str email) l)
  | JStr s => Some (str_contains s email)
  | JObj kvs => Some (existsb (fun kv => String.eqb (fst kv) email) kvs)
  | _ => None
  end.

(** [l.append(email)]. *)
Definition py_append (email : string) (l : list jval) : list jval :=
  l ++ [JStr email].

(** [l.remove(email)]: drops the first element equal to [email];
    [ValueError] ([None]) when there is none. *)
Fixpoint py_remove (email : string) (l : list jval) : option (list jval) :=
  match l with
  | [] => None
  | x :: l' =>
      if eq_str email x then Some l'
      else match py_remove email l' with
           | Some r => Some (x :: r)
           | None => None
           end
  end.

(** ** State: module globals and the data directory *)

Record state : Type := State {
  activities : gmap string (gmap string jval);
  _teacher_sessions : gmap string jval;
  ACTIVITIES_FILE : option (gmap string (gmap string jval));
  TEACHERS_FILE : option (gmap string (list (gmap string string)))
}.

(** ** Responses *)

Inductive response : Type :=
| ActivitiesBody (body : gmap string (gmap string jval))
| TokenBody (token : string)
| MessageBody (message : string)
| HTTPException (status_code : Z) (detail : string)
| UncaughtException (exn : string).

Definition status_of (r : response) : Z :=
  match r with
  | ActivitiesBody _ | TokenBody _ | MessageBody _ => 200
  | HTTPException c _ => c
  | UncaughtException _ => 500
  end.

(** ** Persistence accessors *)

Definition load_activities (file : option (gmap string (gmap string jval)))
  : gmap string (gmap string jval) :=
  match file with
  | Some content => content
  | None => ∅
  end.

Definition save_activities (acts : gmap string (gmap string jval)) (st : state)
  : state :=
  {| activities := activities st;
     _teacher_sessions := _teacher_sessions st;
     ACTIVITIES_FILE := Some acts;
     TEACHERS_FILE := TEACHERS_FILE st |}.

Definition load_teachers (file : option (gmap string (list (gmap string string))))
  : list (gmap string string) :=
  match file with
  | Some doc => default [] (doc !! "teachers")
  | None => []
  end.

(** The process right after import: [activities = load_activities()] and
    [_teacher_sessions = {}]. *)
Definition startup (afile : option (gmap string (gmap string jval)))
    (tfile : option (gmap string (list (gmap string string)))) : state :=
  {| activities := load_activities afile;
     _teacher_sessions := ∅;
     ACTIVITIES_FILE := afile;
     TEACHERS_FILE := tfile |}.

(** In-place mutation of the global registry. *)
Definition set_activities (acts : gmap string (gmap string jval)) (st : state)
  : state :=
  {| activities := acts;
     _teacher_sessions := _teacher_sessions st;
     ACTIVITIES_FILE := ACTIVITIES_FILE st;
     TEACHERS_FILE := TEACHERS_FILE st |}.

Definition set_sessions (sess : gmap string jval) (st : state) : state :=
  {| activities := activities st;
     _teacher_sessions := sess;
     ACTIVITIES_FILE := ACTIVITIES_FILE st;
     TEACHERS_FILE := TEACHERS_FILE st |}.

(** An edit of [teachers.json] from outside the process. *)
Definition set_teachers_file
    (tfile : option (gmap string (list (gmap string string)))) (st : state)
  : state :=
  {| activities := activities st;
     _teacher_sessions := _teacher_sessions st;
     ACTIVITIES_FILE := ACTIVITIES_FILE st;
     TEACHERS_FILE := tfile |}.

(** ** Handlers *)

Definition get_activities (st : state) : response * state :=
  (ActivitiesBody (activities st), st).

(** [t.get(field) == v], where the stored credential is a string or
    missing ([None]) and [v] is the value taken from the payload. *)
Definition cred_eq (stored : option string) (v : jval) : bool :=
  match stored, v with
  | Some s, JStr s' => String.eqb s s'
  | None, JNull => true
  | _, _ => false
  end.

Definition teacher_matches (username password : jval) (t : gmap string string)
  : bool :=
  cred_eq (t !! "username") username && cred_eq (t !! "password") password.

Definition admin_login (uuid4 : string) (payload : gmap string jval) (st : state)
  : response * state :=
  let username := py_get payload "username" in
  let password := py_get payload "password" in
  if negb (truthy username) || negb (truthy password) then
    (HTTPException 400 "username and password required", st)
  else
    let teachers := load_teachers (TEACHERS_FILE st) in
    match find (teacher_matches username password) teachers with
    | Some _ =>
        let token := uuid4 in
        (TokenBody token,
         set_sessions (<[token := username]> (_teacher_sessions st)) st)
    | None => (HTTPException 401 "invalid credentials", st)
    end.

(** [not x_admin_token or x_admin_token not in _teacher_sessions] *)
Definition token_rejected (x_admin_token : option string)
    (sessions : gmap string jval) : bool :=
  match x_admin_token with
  | None => true
  | Some t => String.eqb t "" || negb (bool_decide (is_Some (sessions !! t)))
  end.

Definition signup_for_activity (activity_name email : string)
    (x_admin_token : option string) (st : state) : response * state :=
  if token_rejected x_admin_token (_teacher_sessions st) then
    (HTTPException 401 "admin token required", st)
  else
    match activities st !! activity_name with
    | None => (HTTPException 404 "Activity not found", st)
    | Some activity =>
        match py_in email (py_get_default activity "participants" (JArr [])) with
        | None => (UncaughtException "TypeError", st)
        | Some true => (HTTPException 400 "Student is already signed up", st)
        | Some false =>
            let '(v, activity1) := setdefault activity "participants" (JArr []) in
            match v with
            | JArr l =>
                let activity2 :=
                  <["participants" := JArr (py_append email l)]> activity1 in
                let st' :=
                  set_activities (<[activity_name := activity2]> (activities st)) st in
                (MessageBody ("Signed up " ++ email ++ " for " ++ activity_name),
                 save_activities (activities st') st')
            | _ =>
                (UncaughtException "AttributeError",
                 set_activities (<[activity_name := activity1]> (activities st)) st)
            end
        end
    end.

Definition unregister_from_activity (activity_name email : string)
    (x_admin_token : option string) (st : state) : response * state :=
  if token_rejected x_admin_token (_teacher_sessions st) then
    (HTTPException 401 "admin token required", st)
  else
    match activities st !! activity_name with
    | None => (HTTPException 404 "Activity not found", st)
    | Some activity =>
        match py_in email (py_get_default activity "participants" (JArr [])) with
        | None => (UncaughtException "TypeError", st)
        | Some false =>
            (HTTPException 400 "Student is not signed up for this activity", st)
        | Some true =>
            match activity !! "participants" with
            | None => (UncaughtException "KeyError", st)
            | Some (JArr l) =>
                match py_remove email l with
                | None => (UncaughtException "ValueError", st)
                | Some l' =>
                    let activity' := <["participants" := JArr l']> activity in
                    let st' :=
                      set_activities (<[activity_name := activity']> (activities st)) st in
                    (MessageBody ("Unregistered " ++ email ++ " from " ++ activity_name),
                     save_activities (activities st') st')
                end
            | Some _ => (UncaughtException "AttributeError", st)
            end
        end
    end.

(** ** Requests and runs *)

Inductive request : Type :=
| GetActivities
| AdminLogin (uuid4 : string) (payload : gmap string jval)
| Signup (activity_name email : string) (x_admin_token : option string)
| Unregister (activity_name email : string) (x_admin_token : option string).

Definition handle (rq : request) (st : state) : response * state :=
  match rq with
  | GetActivities => get_activities st
  | AdminLogin u p => admin_login u p st
  | Signup a e t => signup_for_activity a e t st
  | Unregister a e t => unregister_from_activity a e t st
  end.

(** State after serving a sequence of requests, oldest first. *)
Fixpoint run (rqs : list request) (st : state) : state :=
  match rqs with
  | [] => st
  | rq :: rest => run rest (snd (handle rq st))
  end.

Definition is_mutation (rq : request) : bool :=
  match rq with
  | Signup _ _ _ | Unregister _ _ _ => true
  | _ => false
  end.

(** ** Committed states *)

(** The registry once the record [activity], stored under [activity_name],
    holds the list [l] of participants. *)
Definition with_participants (st : state) (activity_name : string)
    (activity : gmap string jval) (l : list jval)
  : gmap string (gmap string jval) :=
  <[activity_name := <["participants" := JArr l]> activity]> (activities st).

(** The state a successful mutation ends in: registry updated in memory
    and written to the catalog file. *)
Definition committed (st : state) (activity_name : string)
    (activity : gmap string jval) (l : list jval) : state :=
  {| activities := with_participants st activity_name activity l;
     _teacher_sessions := _teacher_sessions st;
     ACTIVITIES_FILE := Some (with_participants st activity_name activity l);
     TEACHERS_FILE := TEACHERS_FILE st |}.

(** The activity a mutating request is aimed at. *)
Definition target (rq : request) : option string :=
  match rq with
  | Signup a _ _ | Unregister a _ _ => Some a
  | _ => None
  end.

(** ** Vocabulary of the properties *)


(** Number of elements of a participants list equal to [email]. *)
Fixpoint occurrences (email : string) (l : list jval) : nat :=
  match l with
  | [] => 0
  | x :: l' => (if eq_str email x then 1 else 0) + occurrences email l'
  end.

(** The invariant of the data model: in every record that has a list of
    participants, no email occurs twice. *)
Definition at_most_once (acts : gmap string (gmap string jval)) : Prop :=
  ∀ name A P email,
    acts !! name = Some A →
    A !! "participants" = Some (JArr P) →
    (occurrences email P ≤ 1)%nat.

(** A check of the invariant that computes. *)
Fixpoint unique_emails (l : list jval) : bool :=
  match l with
  | [] => true
  | x :: l' =>
      match x with
      | JStr s => negb (existsb (eq_str s) l')
      | _ => true
      end && unique_emails l'
  end.

Definition record_unique (A : gmap string jval) : bool :=
  match A !! "participants" with
  | Some (JArr P) => unique_emails P
  | _ => true
  end.

Definition roster_unique (acts : gmap string (gmap string jval)) : bool :=
  bool_decide (map_Forall (λ _ A, record_unique A = true) acts).

(** A teacher entry matches the payload by exact string equality on both
    fields. *)
Definition credentials_match (payload : gmap string jval)
    (t : gmap string string) : Prop :=
  ∃ u p, payload !! "username" = Some (JStr u) ∧
         payload !! "password" = Some (JStr p) ∧
         t !! "username" = Some u ∧ t !! "password" = Some p.


Definition guest_login : gmap string jval :=
  <["username" := JStr "guest"]> (<["password" := JStr ""]> ∅).

(** ** A sample process, used to exercise the statements below *)

Definition chess_club : gmap string jval :=
  <["description" := JStr "Learn strategies and compete in chess tournaments"]>
  (<["max_participants" := JInt 12]>
  (<["participants" := JArr [JStr "a@x.edu"]]> ∅)).

(** A catalog entry that was written without a [participants] key. *)
Definition art_club : gmap string jval :=
  <["description" := JStr "Painting and drawing"]> ∅.

Definition sample_catalog : gmap string (gmap string jval) :=
  <["Chess Club" := chess_club]> (<["Art Club" := art_club]> ∅).

Definition sample_teachers : gmap string (list (gmap string string)) :=
  <["teachers" := [ <["username" := "ms1"]> (<["password" := "pass123"]> ∅) ]]> ∅.

Definition sample_login : gmap string jval :=
  <["username" := JStr "ms1"]> (<["password" := JStr "pass123"]> ∅).

Definition sample_uuid : string := "3f2b8c1e-7d4a-4e5b-9a6c-0d1e2f3a4b5c".

(** The sample process after one successful login. *)
Definition sample_state : state :=
  snd (admin_login sample_uuid sample_login
         (startup (Some sample_catalog) (Some sample_teachers))).

(** ** Vocabulary of the further properties *)

(** The participants of the activity [name]; the empty list when the
    activity, its [participants] attribute or a list under it is missing. *)
Definition participants_of (acts : gmap string (gmap string jval))
    (name : string) : list jval :=
  match acts !! name ≫= (.!! "participants") with
  | Some (JArr l) => l
  | _ => []
  end.

(** The elements of a participants list that are not [email], in order. *)
Fixpoint others (email : string) (l : list jval) : list jval :=
  match l with
  | [] => []
  | x :: l' => if eq_str email x then others email l' else x :: others email l'
  end.

(** The process started again on the files it left behind. *)
Definition restart (st : state) : state :=
  startup (ACTIVITIES_FILE st) (TEACHERS_FILE st).

(** A catalog in which one email was entered twice by hand. *)
Definition drama_club : gmap string jval :=
  <["participants" := JArr [JStr "a@x.edu"; JStr "b@x.edu"; JStr "a@x.edu"]]> ∅.

Definition duplicate_state : state :=
  set_activities (<["Drama Club" := drama_club]> (activities sample_state))
    sample_state.

(** * Properties *)

(** ** Lists of participants *)

Section Participants.
Implicit Types (email e : string) (l P : list jval) (x : jval).

Lemma eq_str_true email x : eq_str email x = true ↔ x = JStr email.
Proof.
  destruct x; simpl; try (split; [discriminate | congruence]).
  rewrite String.eqb_eq. split; congruence.
Qed.

Lemma eq_str_refl email : eq_str email (JStr email) = true.
Proof. by apply eq_str_true. Qed.

Lemma existsb_eq_str_app email l l' :
  existsb (eq_str email) (l ++ l') =
  existsb (eq_str email) l || existsb (eq_str email) l'.
Proof. apply existsb_app. Qed.

Lemma py_in_append email l : py_in email (JArr (py_append email l)) = Some true.
Proof.
  unfold py_append, py_in. rewrite existsb_eq_str_app. cbn [existsb].
  rewrite eq_str_refl. by rewrite orb_true_r.
Qed.

(** Removing an email that was appended to a list not holding it gives
    the list back. *)
Lemma py_remove_append email l :
  existsb (eq_str email) l = false →
  py_remove email (py_append email l) = Some l.
Proof.
  unfold py_append. induction l as [|x l IH]; cbn [app existsb py_remove].
  - by rewrite eq_str_refl.
  - intros [Hx Hl]%orb_false_iff. rewrite Hx, (IH Hl). done.
Qed.

(** [remove] succeeds exactly on the lists that hold the email. *)
Lemma py_remove_is_Some email l :
  existsb (eq_str email) l = true → is_Some (py_remove email l).
Proof.
  induction l as [|x l IH]; cbn [existsb py_remove]; [discriminate|].
  destruct (eq_str email x); cbn [orb]; [eauto|].
  intros H. destruct (IH H) as [r ->]. eauto.
Qed.
End Participants.

(** ** The admin token guard *)

Lemma token_rejected_false tok sessions :
  token_rejected tok sessions = false ↔
  ∃ t, tok = Some t ∧ t ≠ "" ∧ is_Some (sessions !! t).
Proof.
  destruct tok as [t|]; simpl.
  - rewrite orb_false_iff, negb_false_iff, bool_decide_eq_true.
    rewrite String.eqb_neq. split.
    + intros [? ?]. eauto.
    + intros (t' & [= <-] & ? & ?). done.
  - split; [discriminate|]. intros (t' & ? & _); discriminate.
Qed.

Lemma token_rejected_unknown tok sessions :
  (tok = None ∨ ∃ t, tok = Some t ∧ sessions !! t = None) →
  token_rejected tok sessions = true.
Proof.
  intros [-> | (t & -> & Hn)]; simpl; [done|].
  rewrite Hn. rewrite bool_decide_eq_false_2; [apply orb_true_r|].
  by intros [? ?].
Qed.

(** ** Outcome of the two mutating handlers, branch by branch *)

Section Handlers.
Variables (st : state) (activity_name email : string)
          (x_admin_token : option string).
Variable activity : gmap string jval.
Hypothesis Htoken : token_rejected x_admin_token (_teacher_sessions st) = false.
Hypothesis Hactivity : activities st !! activity_name = Some activity.

Lemma signup_duplicate :
  py_in email (py_get_default activity "participants" (JArr [])) = Some true →
  signup_for_activity activity_name email x_admin_token st =
    (HTTPException 400 "Student is already signed up", st).
Proof.
  intros Hin. unfold signup_for_activity.
  by rewrite Htoken, Hactivity, Hin.
Qed.

Lemma unregister_absent :
  py_in email (py_get_default activity "participants" (JArr [])) = Some false →
  unregister_from_activity activity_name email x_admin_token st =
    (HTTPException 400 "Student is not signed up for this activity", st).
Proof.
  intros Hin. unfold unregister_from_activity.
  by rewrite Htoken, Hactivity, Hin.
Qed.

Lemma signup_appends P :
  activity !! "participants" = Some (JArr P) →
  existsb (eq_str email) P = false →
  signup_for_activity activity_name email x_admin_token st =
    (MessageBody ("Signed up " ++ email ++ " for " ++ activity_name),
     committed st activity_name activity (py_append email P)).
Proof.
  intros HP Hin. unfold signup_for_activity, py_get_default, setdefault.
  rewrite Htoken, Hactivity, HP. cbn [from_option id py_in]. by rewrite Hin.
Qed.

Lemma signup_creates :
  activity !! "participants" = None →
  signup_for_activity activity_name email x_admin_token st =
    (MessageBody ("Signed up " ++ email ++ " for " ++ activity_name),
     committed st activity_name activity [JStr email]).
Proof.
  intros HP. unfold signup_for_activity, py_get_default, setdefault.
  rewrite Htoken, Hactivity, HP. cbn [from_option id py_in existsb].
  unfold committed, with_participants, save_activities, set_activities, py_append.
  cbn [activities _teacher_sessions ACTIVITIES_FILE TEACHERS_FILE app].
  by rewrite insert_insert_eq.
Qed.

Lemma unregister_removes P :
  activity !! "participants" = Some (JArr P) →
  existsb (eq_str email) P = true →
  ∃ P', py_remove email P = Some P' ∧
    unregister_from_activity activity_name email x_admin_token st =
      (MessageBody ("Unregistered " ++ email ++ " from " ++ activity_name),
       committed st activity_name activity P').
Proof.
  intros HP Hin. destruct (py_remove_is_Some _ _ Hin) as [P' HP'].
  exists P'. split; [done|].
  unfold unregister_from_activity, py_get_default.
  rewrite Htoken, Hactivity, HP. cbn [from_option id py_in]. by rewrite Hin, HP'.
Qed.
End Handlers.

(** ** Round trip *)

Lemma with_participants_id st name A P :
  activities st !! name = Some A →
  A !! "participants" = Some (JArr P) →
  with_participants st name A P = activities st.
Proof.
  intros HA HP. unfold with_participants.
  rewrite (insert_id A) by done. by apply insert_id.
Qed.

Lemma with_participants_twice st name A P Q :
  with_participants (committed st name A P) name
    (<["participants" := JArr P]> A) Q = with_participants st name A Q.
Proof.
  unfold with_participants, committed; cbn [activities].
  unfold with_participants. by rewrite !insert_insert_eq.
Qed.

(** C1. Signing up an email that is not among the participants [P] of an
    activity and then unregistering it, both with an accepted admin token,
    succeeds twice and leaves the activity with participants exactly [P];
    the whole registry is back to what it was. *)
Theorem signup_unregister_round_trip
    (st : state) (name email : string) (tok1 tok2 : option string)
    (A : gmap string jval) (P : list jval) :
  token_rejected tok1 (_teacher_sessions st) = false →
  token_rejected tok2 (_teacher_sessions st) = false →
  activities st !! name = Some A →
  A !! "participants" = Some (JArr P) →
  py_in email (JArr P) = Some false →
  let r1 := signup_for_activity name email tok1 st in
  let r2 := unregister_from_activity name email tok2 (snd r1) in
  status_of (fst r1) = 200%Z ∧ status_of (fst r2) = 200%Z ∧
  activities (snd r2) !! name ≫= (.!! "participants") = Some (JArr P) ∧
  activities (snd r2) = activities st.
Proof.
  intros Htok1 Htok2 HA HP [= Hin]. cbn zeta.
  rewrite (signup_appends st name email tok1 A Htok1 HA P HP Hin).
  cbn [fst snd status_of].
  set (A1 := <["participants" := JArr (py_append email P)]> A).
  assert (HA1 : activities (committed st name A (py_append email P)) !! name
                = Some A1)
    by (unfold committed, with_participants; cbn [activities];
        apply lookup_insert_eq).
  assert (HP1 : A1 !! "participants" = Some (JArr (py_append email P)))
    by apply lookup_insert_eq.
  assert (Hin1 : existsb (eq_str email) (py_append email P) = true).
  { pose proof (py_in_append email P) as H. by injection H. }
  destruct (unregister_removes (committed st name A (py_append email P))
              name email tok2 A1 Htok2 HA1 _ HP1 Hin1) as (P' & HP' & ->).
  rewrite py_remove_append in HP' by done. injection HP' as <-.
  cbn [fst snd status_of committed activities]. unfold A1.
  rewrite with_participants_twice, with_participants_id by done.
  rewrite HA. cbn. by rewrite HP.
Qed.

Lemma signup_unregister_round_trip_witness :
  let r1 := signup_for_activity "Chess Club" "new@student.edu"
              (Some sample_uuid) sample_state in
  let r2 := unregister_from_activity "Chess Club" "new@student.edu"
              (Some sample_uuid) (snd r1) in
  status_of (fst r1) = 200%Z ∧ status_of (fst r2) = 200%Z ∧
  activities (snd r2) !! "Chess Club" ≫= (.!! "participants")
    = Some (JArr [JStr "a@x.edu"]) ∧
  activities (snd r2) = activities sample_state.
Proof.
  apply (signup_unregister_round_trip sample_state "Chess Club"
           "new@student.edu" (Some sample_uuid) (Some sample_uuid)
           chess_club [JStr "a@x.edu"]);
    reflexivity.
Defined.

(** ** Rejected transitions *)

(** C2. With an accepted admin token and an existing activity: signing up
    an email that is already among the participants is answered with 400
    and changes nothing, and unregistering an email that is not among the
    participants is answered with 400 and changes nothing. *)
Theorem duplicate_signup_and_absent_unregister_rejected
    (st : state) (name email : string) (tok : option string)
    (A : gmap string jval) :
  token_rejected tok (_teacher_sessions st) = false →
  activities st !! name = Some A →
  (py_in email (py_get_default A "participants" (JArr [])) = Some true →
   signup_for_activity name email tok st =
     (HTTPException 400 "Student is already signed up", st)) ∧
  (py_in email (py_get_default A "participants" (JArr [])) = Some false →
   unregister_from_activity name email tok st =
     (HTTPException 400 "Student is not signed up for this activity", st)).
Proof.
  intros Htok HA. split; intros Hin.
  - by apply (signup_duplicate st name email tok A).
  - by apply (unregister_absent st name email tok A).
Qed.

Lemma duplicate_signup_and_absent_unregister_rejected_witness :
  signup_for_activity "Chess Club" "a@x.edu" (Some sample_uuid) sample_state =
    (HTTPException 400 "Student is already signed up", sample_state) ∧
  unregister_from_activity "Chess Club" "b@x.edu" (Some sample_uuid) sample_state =
    (HTTPException 400 "Student is not signed up for this activity", sample_state).
Proof.
  split.
  - apply (duplicate_signup_and_absent_unregister_rejected sample_state
             "Chess Club" "a@x.edu" (Some sample_uuid) chess_club);
      reflexivity.
  - apply (duplicate_signup_and_absent_unregister_rejected sample_state
             "Chess Club" "b@x.edu" (Some sample_uuid) chess_club);
      reflexivity.
Defined.

(** C3. A signup or unregister request without the admin-token header, or
    with a token that the session registry does not hold, is answered with
    401 and changes nothing, whatever the activity name and the email:
    the answer does not depend on the activity existing or on the email
    being enrolled. *)
Theorem missing_or_unknown_token_is_401
    (st : state) (name email : string) (tok : option string) :
  (tok = None ∨ ∃ t, tok = Some t ∧ _teacher_sessions st !! t = None) →
  signup_for_activity name email tok st =
    (HTTPException 401 "admin token required", st) ∧
  unregister_from_activity name email tok st =
    (HTTPException 401 "admin token required", st).
Proof.
  intros Hrej%token_rejected_unknown.
  unfold signup_for_activity, unregister_from_activity. by rewrite Hrej.
Qed.

Lemma missing_or_unknown_token_is_401_witness :
  (signup_for_activity "No Such Club" "a@x.edu" None sample_state =
     (HTTPException 401 "admin token required", sample_state) ∧
   unregister_from_activity "No Such Club" "a@x.edu" None sample_state =
     (HTTPException 401 "admin token required", sample_state)) ∧
  (signup_for_activity "Chess Club" "a@x.edu" (Some "forged") sample_state =
     (HTTPException 401 "admin token required", sample_state) ∧
   unregister_from_activity "Chess Club" "b@x.edu" (Some "forged") sample_state =
     (HTTPException 401 "admin token required", sample_state)).
Proof.
  split.
  - apply (missing_or_unknown_token_is_401 sample_state "No Such Club"
             "a@x.edu" None).
    left. reflexivity.
  - split.
    + apply (missing_or_unknown_token_is_401 sample_state "Chess Club"
               "a@x.edu" (Some "forged")).
      right. exists "forged". split; reflexivity.
    + apply (missing_or_unknown_token_is_401 sample_state "Chess Club"
               "b@x.edu" (Some "forged")).
      right. exists "forged". split; reflexivity.
Defined.

(** ** Records without a participants attribute *)

(** C10. For an existing activity whose record has no [participants]
    attribute, with an accepted admin token: signup of any email succeeds
    and leaves the record with a [participants] attribute holding exactly
    that email (everything else in the record as before), and unregister
    of any email is answered with 400 and changes nothing. *)
Theorem missing_participants_is_empty_list
    (st : state) (name email : string) (tok : option string)
    (A : gmap string jval) :
  token_rejected tok (_teacher_sessions st) = false →
  activities st !! name = Some A →
  A !! "participants" = None →
  (let r := signup_for_activity name email tok st in
   status_of (fst r) = 200%Z ∧
   activities (snd r) !! name =
     Some (<["participants" := JArr [JStr email]]> A)) ∧
  unregister_from_activity name email tok st =
    (HTTPException 400 "Student is not signed up for this activity", st).
Proof.
  intros Htok HA HP. split.
  - cbn zeta. rewrite (signup_creates st name email tok A Htok HA HP).
    split; [done|]. cbn [snd committed activities].
    apply lookup_insert_eq.
  - apply (unregister_absent st name email tok A Htok HA).
    unfold py_get_default. by rewrite HP.
Qed.

Lemma missing_participants_is_empty_list_witness :
  (let r := signup_for_activity "Art Club" "z@x.edu" (Some sample_uuid)
              sample_state in
   status_of (fst r) = 200%Z ∧
   activities (snd r) !! "Art Club" =
     Some (<["participants" := JArr [JStr "z@x.edu"]]> art_club)) ∧
  unregister_from_activity "Art Club" "z@x.edu" (Some sample_uuid) sample_state =
    (HTTPException 400 "Student is not signed up for this activity",
     sample_state).
Proof.
  apply (missing_participants_is_empty_list sample_state "Art Club" "z@x.edu"
           (Some sample_uuid) art_club); reflexivity.
Defined.

(** ** What a mutating handler can do to the state *)

Lemma set_activities_same st name A :
  activities st !! name = Some A →
  set_activities (<[name := A]> (activities st)) st = st.
Proof.
  intros HA. destruct st as [acts sess af tf]; unfold set_activities.
  cbn [activities _teacher_sessions ACTIVITIES_FILE TEACHERS_FILE] in *.
  by rewrite insert_id.
Qed.

(** Signup either fails and leaves the state as it is, or appends the
    email to the activity's list (the empty list if the record has none)
    and commits. *)
Lemma signup_cases st name email tok :
  let r := signup_for_activity name email tok st in
  (status_of (fst r) ≠ 200%Z ∧ snd r = st) ∨
  (∃ A P, activities st !! name = Some A ∧
          py_get_default A "participants" (JArr []) = JArr P ∧
          existsb (eq_str email) P = false ∧
          r = (MessageBody ("Signed up " ++ email ++ " for " ++ name),
               committed st name A (py_append email P))).
Proof.
  cbn zeta. unfold signup_for_activity.
  destruct (token_rejected tok (_teacher_sessions st)) eqn:Htok;
    [left; by split|].
  destruct (activities st !! name) as [A|] eqn:HA; [|left; by split].
  destruct (py_in email (py_get_default A "participants" (JArr [])))
    as [[]|] eqn:Hin; [left; by split| |left; by split].
  unfold py_get_default, setdefault in *.
  destruct (A !! "participants") as [v|] eqn:HP; cbn [from_option id] in *.
  - destruct v; try discriminate Hin;
      try (left; split; [done|]; by apply set_activities_same).
    right. exists A, l. injection Hin as Hin. by rewrite HP.
  - right. exists A, []. rewrite HP. do 3 (split; [done|]).
    unfold committed, with_participants, save_activities, set_activities,
      py_append.
    cbn [activities _teacher_sessions ACTIVITIES_FILE TEACHERS_FILE app].
    by rewrite insert_insert_eq.
Qed.

(** Unregister either fails and leaves the state as it is, or removes the
    first occurrence of the email from the activity's list and commits. *)
Lemma unregister_cases st name email tok :
  let r := unregister_from_activity name email tok st in
  (status_of (fst r) ≠ 200%Z ∧ snd r = st) ∨
  (∃ A P P', activities st !! name = Some A ∧
             A !! "participants" = Some (JArr P) ∧
             py_remove email P = Some P' ∧
             r = (MessageBody ("Unregistered " ++ email ++ " from " ++ name),
                  committed st name A P')).
Proof.
  cbn zeta. unfold unregister_from_activity.
  destruct (token_rejected tok (_teacher_sessions st)) eqn:Htok;
    [left; by split|].
  destruct (activities st !! name) as [A|] eqn:HA; [|left; by split].
  destruct (py_in email (py_get_default A "participants" (JArr [])))
    as [[]|] eqn:Hin; [|left; by split|left; by split].
  destruct (A !! "participants") as [v|] eqn:HP; [|left; by split].
  destruct v; try (left; by split).
  destruct (py_remove email l) as [P'|] eqn:Hrm; [|left; by split].
  right. by exists A, l, P'.
Qed.

Lemma admin_login_activities uuid4 payload st :
  activities (snd (admin_login uuid4 payload st)) = activities st ∧
  ACTIVITIES_FILE (snd (admin_login uuid4 payload st)) = ACTIVITIES_FILE st.
Proof.
  unfold admin_login.
  destruct (negb (truthy (py_get payload "username")) ||
            negb (truthy (py_get payload "password"))); [done|].
  by destruct (find _ _).
Qed.

(** ** Frame *)

Lemma handle_cases rq st :
  (activities (snd (handle rq st)) = activities st ∧
   ACTIVITIES_FILE (snd (handle rq st)) = ACTIVITIES_FILE st ∧
   (is_mutation rq = true → status_of (fst (handle rq st)) ≠ 200%Z)) ∨
  (∃ name A l, target rq = Some name ∧
               activities st !! name = Some A ∧
               status_of (fst (handle rq st)) = 200%Z ∧
               snd (handle rq st) = committed st name A l).
Proof.
  destruct rq as [|u p|a e t|a e t]; cbn [handle is_mutation target].
  - left. by repeat split.
  - left. destruct (admin_login_activities u p st) as [-> ->]. by repeat split.
  - destruct (signup_cases st a e t) as [[Hs ->]|(A & P & HA & _ & _ & ->)].
    + left. by repeat split.
    + right. by exists a, A, (py_append e P).
  - destruct (unregister_cases st a e t)
      as [[Hs ->]|(A & P & P' & HA & _ & _ & ->)].
    + left. by repeat split.
    + right. by exists a, A, P'.
Qed.

(** C6. No request changes the set of activity names, and a successful
    signup or unregister aimed at an activity leaves every other record
    as it was and, in the record of that activity, every attribute other
    than [participants] as it was. *)
Theorem only_participants_of_target_change :
  (∀ rq st, dom (activities (snd (handle rq st))) = dom (activities st)) ∧
  (∀ rq st name,
     target rq = Some name →
     status_of (fst (handle rq st)) = 200%Z →
     (∀ other, other ≠ name →
        activities (snd (handle rq st)) !! other = activities st !! other) ∧
     (∃ A A', activities st !! name = Some A ∧
              activities (snd (handle rq st)) !! name = Some A' ∧
              ∀ k, k ≠ "participants" → A' !! k = A !! k)).
Proof.
  split.
  - intros rq st.
    destruct (handle_cases rq st) as [(-> & _)|(name & A & l & _ & HA & _ & ->)];
      [done|].
    unfold committed, with_participants; cbn [activities].
    rewrite dom_insert_L. apply subseteq_union_1_L, singleton_subseteq_l.
    by apply elem_of_dom_2 with A.
  - intros rq st name Ht Hs.
    destruct (handle_cases rq st)
      as [(_ & _ & Hfail)|(name' & A & l & Ht' & HA & _ & ->)].
    + destruct rq; try discriminate Ht; by destruct Hfail.
    + rewrite Ht in Ht'. injection Ht' as <-.
      unfold committed, with_participants; cbn [activities]. split.
      * intros other Hne. by rewrite lookup_insert_ne.
      * exists A, (<["participants" := JArr l]> A).
        split; [done|]. split; [apply lookup_insert_eq|].
        intros k Hk. by rewrite lookup_insert_ne.
Qed.

Lemma only_participants_of_target_change_witness :
  let rq := Signup "Chess Club" "new@student.edu" (Some sample_uuid) in
  dom (activities (snd (handle rq sample_state))) = dom (activities sample_state) ∧
  (∀ other, other ≠ "Chess Club" →
     activities (snd (handle rq sample_state)) !! other
       = activities sample_state !! other) ∧
  (∃ A A', activities sample_state !! "Chess Club" = Some A ∧
           activities (snd (handle rq sample_state)) !! "Chess Club" = Some A' ∧
           ∀ k, k ≠ "participants" → A' !! k = A !! k).
Proof.
  cbn zeta.
  destruct only_participants_of_target_change as [Hdom Hframe].
  split.
  - apply Hdom.
  - apply (Hframe (Signup "Chess Club" "new@student.edu" (Some sample_uuid))
             sample_state "Chess Club"); reflexivity.
Defined.

(** ** Persistence *)





(** ** Each email at most once per activity *)

Section Occurrences.
Implicit Types (email e : string) (l P : list jval).

Lemma occurrences_zero email l :
  occurrences email l = 0 ↔ existsb (eq_str email) l = false.
Proof.
  induction l as [|x l IH]; cbn [occurrences existsb]; [done|].
  destruct (eq_str email x); cbn [orb]; [split; [lia|discriminate]|].
  by rewrite Nat.add_0_l.
Qed.

Lemma occurrences_app email l l' :
  occurrences email (l ++ l') = occurrences email l + occurrences email l'.
Proof.
  induction l as [|x l IH]; cbn [occurrences app]; [done|]. rewrite IH. lia.
Qed.

Lemma occurrences_append email e P :
  existsb (eq_str e) P = false →
  (occurrences email P ≤ 1)%nat →
  (occurrences email (py_append e P) ≤ 1)%nat.
Proof.
  intros Hin Hle. unfold py_append. rewrite occurrences_app.
  cbn [occurrences]. destruct (eq_str email (JStr e)) eqn:He; [|lia].
  apply eq_str_true in He. injection He as ->.
  apply occurrences_zero in Hin. lia.
Qed.

Lemma occurrences_remove email e P P' :
  py_remove e P = Some P' → (occurrences email P' ≤ occurrences email P)%nat.
Proof.
  revert P'. induction P as [|x P IH]; intros P'; cbn [py_remove];
    [discriminate|].
  destruct (eq_str e x).
  - intros [= <-]. cbn [occurrences]. lia.
  - destruct (py_remove e P) as [r|]; [|discriminate].
    intros [= <-]. cbn [occurrences]. specialize (IH r eq_refl). lia.
Qed.

Lemma unique_emails_sound P email :
  unique_emails P = true → (occurrences email P ≤ 1)%nat.
Proof.
  induction P as [|x P IH]; cbn [unique_emails occurrences]; [lia|].
  intros [Hx HP]%andb_true_iff. specialize (IH HP).
  destruct (eq_str email x) eqn:He; [|lia].
  apply eq_str_true in He. subst x. apply negb_true_iff in Hx.
  apply occurrences_zero in Hx. lia.
Qed.
End Occurrences.

Lemma roster_unique_sound acts : roster_unique acts = true → at_most_once acts.
Proof.
  unfold roster_unique. rewrite bool_decide_eq_true.
  intros Hall name A P email HA HP. specialize (Hall name A HA).
  unfold record_unique in Hall. cbn beta in Hall. rewrite HP in Hall.
  by apply unique_emails_sound.
Qed.

Lemma at_most_once_committed st name A l :
  at_most_once (activities st) →
  (∀ email, (occurrences email l ≤ 1)%nat) →
  at_most_once (activities (committed st name A l)).
Proof.
  intros Hinv Hl name' A' P email. unfold committed, with_participants.
  cbn [activities]. destruct (decide (name = name')) as [<-|Hne].
  - rewrite lookup_insert_eq. intros [= <-].
    rewrite lookup_insert_eq. intros [= <-]. apply Hl.
  - rewrite lookup_insert_ne by done. apply Hinv.
Qed.

Lemma at_most_once_handle rq st :
  at_most_once (activities st) →
  at_most_once (activities (snd (handle rq st))).
Proof.
  intros Hinv. destruct rq as [|u p|a e t|a e t]; cbn [handle].
  - done.
  - by destruct (admin_login_activities u p st) as [-> _].
  - destruct (signup_cases st a e t)
      as [[_ ->]|(A & P & HA & HP & Hin & ->)]; [done|].
    apply at_most_once_committed; [done|]. intros email.
    apply occurrences_append; [done|].
    unfold py_get_default in HP.
    destruct (A !! "participants") as [v|] eqn:Hv; cbn [from_option id] in HP.
    + subst v. by apply (Hinv a A P email).
    + injection HP as <-. cbn. lia.
  - destruct (unregister_cases st a e t)
      as [[_ ->]|(A & P & P' & HA & HP & Hrm & ->)]; [done|].
    apply at_most_once_committed; [done|]. intros email.
    pose proof (occurrences_remove email e P P' Hrm).
    pose proof (Hinv a A P email HA HP). lia.
Qed.

(** C8. If in every activity each email occurs at most once among the
    participants, the same holds after any sequence of requests (signup,
    unregister, login, listing). *)
Theorem at_most_once_preserved (rqs : list request) (st : state) :
  at_most_once (activities st) →
  at_most_once (activities (run rqs st)).
Proof.
  revert st. induction rqs as [|rq rqs IH]; intros st Hinv; cbn [run]; [done|].
  by apply IH, at_most_once_handle.
Qed.

Lemma at_most_once_preserved_witness :
  at_most_once
    (activities
       (run [Signup "Chess Club" "new@student.edu" (Some sample_uuid);
             Signup "Chess Club" "new@student.edu" (Some sample_uuid);
             Signup "Art Club" "a@x.edu" (Some sample_uuid);
             Unregister "Chess Club" "a@x.edu" (Some sample_uuid)]
          sample_state)).
Proof.
  apply (at_most_once_preserved _ sample_state).
  apply roster_unique_sound. vm_compute. reflexivity.
Defined.

(** ** Login *)

Lemma py_get_absent (d : gmap string jval) k :
  d !! k = None → truthy (py_get d k) = false.
Proof. unfold py_get. by intros ->. Qed.

Lemma cred_eq_truthy stored v :
  truthy v = true →
  cred_eq stored v = true ↔ ∃ s, v = JStr s ∧ stored = Some s.
Proof.
  intros Hv. destruct stored as [s|], v; cbn [cred_eq]; try discriminate Hv;
    try (split; [discriminate | by intros (? & ? & ?)]).
  rewrite String.eqb_eq. split.
  - intros ->. eauto.
  - by intros (? & [= ->] & [= ->]).
Qed.

Lemma py_get_JStr (d : gmap string jval) k s :
  py_get d k = JStr s ↔ d !! k = Some (JStr s).
Proof.
  unfold py_get. destruct (d !! k) as [v|]; cbn; [|done].
  split; congruence.
Qed.

Lemma teacher_matches_spec payload t :
  truthy (py_get payload "username") = true →
  truthy (py_get payload "password") = true →
  teacher_matches (py_get payload "username") (py_get payload "password") t
    = true ↔ credentials_match payload t.
Proof.
  intros Hu Hp. unfold teacher_matches, credentials_match.
  rewrite andb_true_iff, !cred_eq_truthy by done.
  setoid_rewrite py_get_JStr. split.
  - intros [(u & ? & ?) (p & ? & ?)]. by exists u, p.
  - intros (u & p & ? & ? & ? & ?). split; [by exists u|by exists p].
Qed.

Lemma find_is_Some {A} (f : A → bool) (l : list A) :
  is_Some (find f l) ↔ ∃ x, x ∈ l ∧ f x = true.
Proof.
  induction l as [|y l IH]; cbn [find].
  - split; [by intros [? ?]|]. intros (x & Hx & _). by apply elem_of_nil in Hx.
  - destruct (f y) eqn:Hy.
    + split; [|eauto]. intros _. exists y. split; [left|done].
    + rewrite IH. split.
      * intros (x & Hx & Hfx). exists x. split; [by right|done].
      * intros (x & Hx & Hfx). apply elem_of_cons in Hx as [->|Hx];
          [congruence|eauto].
Qed.

(** The login handler, branch by branch. *)
Lemma admin_login_cases uuid4 payload st :
  let username := py_get payload "username" in
  let password := py_get payload "password" in
  let r := admin_login uuid4 payload st in
  ((truthy username = false ∨ truthy password = false) ∧
   r = (HTTPException 400 "username and password required", st)) ∨
  (truthy username = true ∧ truthy password = true ∧
   (∃ t, t ∈ load_teachers (TEACHERS_FILE st) ∧ credentials_match payload t) ∧
   r = (TokenBody uuid4,
        set_sessions (<[uuid4 := username]> (_teacher_sessions st)) st)) ∨
  (truthy username = true ∧ truthy password = true ∧
   ¬ (∃ t, t ∈ load_teachers (TEACHERS_FILE st) ∧ credentials_match payload t) ∧
   r = (HTTPException 401 "invalid credentials", st)).
Proof.
  cbn zeta. unfold admin_login.
  destruct (truthy (py_get payload "username")) eqn:Hu; cbn [negb orb];
    [|left; split; [by left|done]].
  destruct (truthy (py_get payload "password")) eqn:Hp; cbn [negb];
    [|left; split; [by right|done]].
  right.
  destruct (find _ _) as [t|] eqn:Hfind.
  - left. do 2 (split; [done|]). split; [|done].
    destruct (proj1 (find_is_Some _ _) (mk_is_Some _ _ Hfind)) as (x & Hx & Hm).
    exists x. split; [done|]. by apply teacher_matches_spec.
  - right. do 2 (split; [done|]). split; [|done].
    intros (x & Hx & Hm). apply teacher_matches_spec in Hm; [|done..].
    assert (is_Some (find (teacher_matches (py_get payload "username")
                             (py_get payload "password"))
                       (load_teachers (TEACHERS_FILE st)))) as [? Hs]
      by (apply find_is_Some; eauto).
    congruence.
Qed.

(** C4, as stated, fails: a payload that holds both fields, the username
    being the empty string, is answered with 400. *)
Lemma login_400_with_both_fields_present :
  let payload : gmap string jval :=
    <["username" := JStr ""]> (<["password" := JStr "pass123"]> ∅) in
  payload !! "username" = Some (JStr "") ∧
  payload !! "password" = Some (JStr "pass123") ∧
  admin_login sample_uuid payload sample_state =
    (HTTPException 400 "username and password required", sample_state).
Proof. cbn zeta. repeat split; reflexivity. Qed.

(** C4, amended. Login is answered with 400 exactly when the username or
    the password, as read from the payload, has a false truth value, which
    covers a field that is absent, null, false, zero, an empty string, an
    empty list or an empty object; when both have a true truth value the
    credential check proceeds and the answer is the token on a match and
    401 on no match. *)
Theorem login_400_iff_missing_or_falsy
    (uuid4 : string) (payload : gmap string jval) (st : state) :
  let username := py_get payload "username" in
  let password := py_get payload "password" in
  let r := admin_login uuid4 payload st in
  (status_of (fst r) = 400%Z ↔
     truthy username = false ∨ truthy password = false) ∧
  (payload !! "username" = None ∨ payload !! "password" = None →
     status_of (fst r) = 400%Z) ∧
  (truthy username = true ∧ truthy password = true →
     ((∃ t, t ∈ load_teachers (TEACHERS_FILE st) ∧ credentials_match payload t) ∧
      fst r = TokenBody uuid4) ∨
     (¬ (∃ t, t ∈ load_teachers (TEACHERS_FILE st) ∧ credentials_match payload t) ∧
      fst r = HTTPException 401 "invalid credentials")).
Proof.
  cbn zeta.
  destruct (admin_login_cases uuid4 payload st)
    as [[Hf ->]|[(Hu & Hp & Hm & ->)|(Hu & Hp & Hm & ->)]]; cbn [fst status_of].
  - split; [done|]. split; [done|].
    intros [Hu Hp]. destruct Hf; congruence.
  - split; [split; [discriminate|intros []; congruence]|].
    split; [|intros _; by left].
    intros [Hn|Hn]; apply py_get_absent in Hn; congruence.
  - split; [split; [discriminate|intros []; congruence]|].
    split; [|intros _; by right].
    intros [Hn|Hn]; apply py_get_absent in Hn; congruence.
Qed.

Lemma login_400_iff_missing_or_falsy_witness :
  let r := admin_login sample_uuid sample_login
             (startup (Some sample_catalog) (Some sample_teachers)) in
  ((∃ t, t ∈ load_teachers (Some sample_teachers) ∧
         credentials_match sample_login t) ∧
   fst r = TokenBody sample_uuid) ∨
  (¬ (∃ t, t ∈ load_teachers (Some sample_teachers) ∧
           credentials_match sample_login t) ∧
   fst r = HTTPException 401 "invalid credentials").
Proof.
  apply (login_400_iff_missing_or_falsy sample_uuid sample_login
           (startup (Some sample_catalog) (Some sample_teachers))).
  split; reflexivity.
Defined.




(** ** Persistence accessors *)

(** C9. [load_activities] returns the content of the catalog file when the
    file exists and the empty mapping when it does not, and the registry
    of a fresh process is that value; [load_teachers] returns the list
    under [teachers] of the credential file when the file exists (the
    empty list when the document has no such entry) and the empty list
    when it does not; login reads the credential file as it is at the time
    of the request, so its answer follows an edit of the file. *)
Theorem accessors_read_the_files :
  (∀ content, load_activities (Some content) = content) ∧
  load_activities None = ∅ ∧
  (∀ afile tfile, activities (startup afile tfile) = load_activities afile) ∧
  (∀ doc l, load_teachers (Some (<["teachers" := l]> doc)) = l) ∧
  (∀ doc, load_teachers (Some (delete "teachers" doc)) = []) ∧
  load_teachers None = [] ∧
  (∀ uuid4 payload st tfile,
     let username := py_get payload "username" in
     let password := py_get payload "password" in
     fst (admin_login uuid4 payload (set_teachers_file tfile st)) =
       if negb (truthy username) || negb (truthy password)
       then HTTPException 400 "username and password required"
       else if existsb (teacher_matches username password) (load_teachers tfile)
            then TokenBody uuid4
            else HTTPException 401 "invalid credentials").
Proof.
  split; [done|]. split; [done|]. split; [done|].
  split; [intros doc l; unfold load_teachers; by rewrite lookup_insert_eq|].
  split; [intros doc; unfold load_teachers; by rewrite lookup_delete_eq|].
  split; [done|].
  intros uuid4 payload st tfile. cbn zeta. unfold admin_login.
  cbn [set_teachers_file TEACHERS_FILE].
  destruct (negb _ || negb _); [done|].
  induction (load_teachers tfile) as [|t l IH]; cbn [find existsb]; [done|].
  destruct (teacher_matches _ _ t); [done|]. exact IH.
Qed.

(** * Further properties of the handlers *)

(** ** What each handler leaves alone *)

Lemma committed_rest st name A l :
  _teacher_sessions (committed st name A l) = _teacher_sessions st ∧
  TEACHERS_FILE (committed st name A l) = TEACHERS_FILE st.
Proof. done. Qed.

Lemma signup_rest st name email tok :
  _teacher_sessions (snd (signup_for_activity name email tok st))
    = _teacher_sessions st ∧
  TEACHERS_FILE (snd (signup_for_activity name email tok st)) = TEACHERS_FILE st.
Proof.
  destruct (signup_cases st name email tok)
    as [[_ ->]|(A & P & _ & _ & _ & ->)]; [done|apply committed_rest].
Qed.

Lemma unregister_rest st name email tok :
  _teacher_sessions (snd (unregister_from_activity name email tok st))
    = _teacher_sessions st ∧
  TEACHERS_FILE (snd (unregister_from_activity name email tok st))
    = TEACHERS_FILE st.
Proof.
  destruct (unregister_cases st name email tok)
    as [[_ ->]|(A & P & P' & _ & _ & _ & ->)]; [done|apply committed_rest].
Qed.

Lemma admin_login_rest uuid4 payload st :
  TEACHERS_FILE (snd (admin_login uuid4 payload st)) = TEACHERS_FILE st ∧
  ∀ t, is_Some (_teacher_sessions st !! t) →
       is_Some (_teacher_sessions (snd (admin_login uuid4 payload st)) !! t).
Proof.
  destruct (admin_login_cases uuid4 payload st)
    as [[_ ->]|[(_ & _ & _ & ->)|(_ & _ & _ & ->)]]; [done| |done].
  split; [done|]. intros t Ht. cbn [snd set_sessions _teacher_sessions].
  destruct (decide (uuid4 = t)) as [->|Hne].
  - rewrite lookup_insert_eq. by eexists.
  - by rewrite lookup_insert_ne.
Qed.

Lemma handle_teachers_file rq st :
  TEACHERS_FILE (snd (handle rq st)) = TEACHERS_FILE st.
Proof.
  destruct rq as [|u p|a e t|a e t]; cbn [handle].
  - done.
  - apply admin_login_rest.
  - apply signup_rest.
  - apply unregister_rest.
Qed.

Lemma handle_keeps_session rq st t :
  is_Some (_teacher_sessions st !! t) →
  is_Some (_teacher_sessions (snd (handle rq st)) !! t).
Proof.
  destruct rq as [|u p|a e tok|a e tok]; cbn [handle].
  - done.
  - apply admin_login_rest.
  - by destruct (signup_rest st a e tok) as [-> _].
  - by destruct (unregister_rest st a e tok) as [-> _].
Qed.

Lemma run_keeps_token rqs st tok :
  token_rejected tok (_teacher_sessions st) = false →
  token_rejected tok (_teacher_sessions (run rqs st)) = false.
Proof.
  revert st. induction rqs as [|rq rqs IH]; intros st Hok; cbn [run]; [done|].
  apply IH. apply token_rejected_false in Hok as (t & -> & Hne & Hin).
  apply token_rejected_false. exists t. do 2 (split; [done|]).
  by apply handle_keeps_session.
Qed.

Lemma token_rejected_true tok sessions :
  token_rejected tok sessions = true ↔
  tok = None ∨ tok = Some "" ∨ ∃ t, tok = Some t ∧ sessions !! t = None.
Proof.
  destruct tok as [t|]; cbn [token_rejected]; [|split; [by left|done]].
  rewrite orb_true_iff, negb_true_iff, bool_decide_eq_false, String.eqb_eq.
  split.
  - intros [->|Hn]; [right; by left|]. right; right. exists t. split; [done|].
    destruct (sessions !! t) eqn:E; [|done]. destruct Hn. by eexists.
  - intros [|[[= ->]|(t' & [= <-] & Hn)]]; [done|by left|].
    right. rewrite Hn. by intros [? ?].
Qed.

(** ** Failure leaves no trace *)



(** X2. With an accepted admin token, signup and unregister aimed at a
    name that the registry does not hold are answered with 404, whatever
    the email, and change nothing. *)
Theorem unknown_activity_is_404
    (st : state) (name email : string) (tok : option string) :
  token_rejected tok (_teacher_sessions st) = false →
  activities st !! name = None →
  signup_for_activity name email tok st =
    (HTTPException 404 "Activity not found", st) ∧
  unregister_from_activity name email tok st =
    (HTTPException 404 "Activity not found", st).
Proof.
  intros Htok Hname. unfold signup_for_activity, unregister_from_activity.
  by rewrite Htok, Hname.
Qed.

Lemma unknown_activity_is_404_witness :
  signup_for_activity "Chess" "a@x.edu" (Some sample_uuid) sample_state =
    (HTTPException 404 "Activity not found", sample_state) ∧
  unregister_from_activity "Chess" "a@x.edu" (Some sample_uuid) sample_state =
    (HTTPException 404 "Activity not found", sample_state).
Proof.
  apply (unknown_activity_is_404 sample_state "Chess" "a@x.edu"
           (Some sample_uuid)); reflexivity.
Defined.

Lemma signup_status_401 st name email tok :
  status_of (fst (signup_for_activity name email tok st)) = 401%Z ↔
  token_rejected tok (_teacher_sessions st) = true.
Proof.
  unfold signup_for_activity.
  destruct (token_rejected tok (_teacher_sessions st)); [done|].
  split; [|discriminate]. intros Hs. exfalso. revert Hs.
  destruct (activities st !! name) as [A|]; [|discriminate].
  destruct (py_in _ _) as [[]|]; try discriminate.
  destruct (setdefault _ _ _) as [v A1]. by destruct v.
Qed.

Lemma unregister_status_401 st name email tok :
  status_of (fst (unregister_from_activity name email tok st)) = 401%Z ↔
  token_rejected tok (_teacher_sessions st) = true.
Proof.
  unfold unregister_from_activity.
  destruct (token_rejected tok (_teacher_sessions st)); [done|].
  split; [|discriminate]. intros Hs. exfalso. revert Hs.
  destruct (activities st !! name) as [A|]; [|discriminate].
  destruct (py_in _ _) as [[]|]; try discriminate.
  destruct (A !! "participants") as [v|]; [|discriminate].
  destruct v; try discriminate. by destruct (py_remove _ _).
Qed.

(** X3. Signup and unregister are answered with 401 exactly when the token
    header is missing, is the empty string, or is not a key of the session
    registry. *)
Theorem status_401_iff_token_unusable
    (st : state) (name email : string) (tok : option string) :
  let unusable :=
    tok = None ∨ tok = Some "" ∨
    ∃ t, tok = Some t ∧ _teacher_sessions st !! t = None in
  (status_of (fst (signup_for_activity name email tok st)) = 401%Z ↔ unusable) ∧
  (status_of (fst (unregister_from_activity name email tok st)) = 401%Z
     ↔ unusable).
Proof.
  cbn zeta. rewrite <- token_rejected_true.
  split; [apply signup_status_401|apply unregister_status_401].
Qed.

(** ** When a mutation goes through *)

Lemma py_remove_Some_in email l l' :
  py_remove email l = Some l' → existsb (eq_str email) l = true.
Proof.
  revert l'. induction l as [|x l IH]; intros l'; cbn [py_remove existsb];
    [discriminate|].
  destruct (eq_str email x); [done|]. cbn [orb].
  destruct (py_remove email l) as [r|]; [|discriminate]. intros _. by eapply IH.
Qed.

(** X4. Signup succeeds exactly when the token is accepted, the activity
    exists, and its participants (the empty list when the attribute is
    missing) are a list that does not hold the email; unregister succeeds
    exactly when the token is accepted, the activity exists, and its
    participants are a list that holds the email. Nothing else in the
    record or in the email is looked at. *)
Theorem mutation_succeeds_iff
    (st : state) (name email : string) (tok : option string) :
  (status_of (fst (signup_for_activity name email tok st)) = 200%Z ↔
     token_rejected tok (_teacher_sessions st) = false ∧
     ∃ A P, activities st !! name = Some A ∧
            py_get_default A "participants" (JArr []) = JArr P ∧
            existsb (eq_str email) P = false) ∧
  (status_of (fst (unregister_from_activity name email tok st)) = 200%Z ↔
     token_rejected tok (_teacher_sessions st) = false ∧
     ∃ A P, activities st !! name = Some A ∧
            A !! "participants" = Some (JArr P) ∧
            existsb (eq_str email) P = true).
Proof.
  split; split.
  - intros Hs. split.
    + destruct (token_rejected tok (_teacher_sessions st)) eqn:Htok; [|done].
      pose proof (proj2 (signup_status_401 st name email tok) Htok). congruence.
    + destruct (signup_cases st name email tok)
        as [[Hne _]|(A & P & HA & HP & Hin & _)]; [done|].
      by exists A, P.
  - intros (Htok & A & P & HA & HP & Hin). unfold py_get_default in HP.
    destruct (A !! "participants") as [v|] eqn:Hv; cbn [from_option id] in HP.
    + subst v. by rewrite (signup_appends st name email tok A Htok HA P Hv Hin).
    + by rewrite (signup_creates st name email tok A Htok HA Hv).
  - intros Hs. split.
    + destruct (token_rejected tok (_teacher_sessions st)) eqn:Htok; [|done].
      pose proof (proj2 (unregister_status_401 st name email tok) Htok).
      congruence.
    + destruct (unregister_cases st name email tok)
        as [[Hne _]|(A & P & P' & HA & HP & Hrm & _)]; [done|].
      exists A, P. do 2 (split; [done|]). by eapply py_remove_Some_in.
  - intros (Htok & A & P & HA & HP & Hin).
    by destruct (unregister_removes st name email tok A Htok HA P HP Hin)
      as (P' & _ & ->).
Qed.

(** ** Sessions *)

(** X5. A token that is accepted stays accepted: after any sequence of
    requests it still passes the guard, so no later signup or unregister
    that carries it is answered with 401. *)
Theorem accepted_token_never_expires
    (rqs : list request) (st : state) (tok : option string) :
  token_rejected tok (_teacher_sessions st) = false →
  token_rejected tok (_teacher_sessions (run rqs st)) = false ∧
  ∀ name email,
    status_of (fst (signup_for_activity name email tok (run rqs st))) ≠ 401%Z ∧
    status_of (fst (unregister_from_activity name email tok (run rqs st)))
      ≠ 401%Z.
Proof.
  intros Hok. pose proof (run_keeps_token rqs st tok Hok) as Hrun.
  split; [done|]. intros name email. split; intros Hs.
  - apply signup_status_401 in Hs. congruence.
  - apply unregister_status_401 in Hs. congruence.
Qed.

Lemma accepted_token_never_expires_witness :
  let rqs := [AdminLogin "second-token" sample_login;
              Signup "Art Club" "z@x.edu" (Some "second-token");
              AdminLogin sample_uuid guest_login;
              GetActivities] in
  token_rejected (Some sample_uuid) (_teacher_sessions (run rqs sample_state))
    = false ∧
  ∀ name email,
    status_of (fst (signup_for_activity name email (Some sample_uuid)
                      (run rqs sample_state))) ≠ 401%Z ∧
    status_of (fst (unregister_from_activity name email (Some sample_uuid)
                      (run rqs sample_state))) ≠ 401%Z.
Proof.
  apply (accepted_token_never_expires _ sample_state (Some sample_uuid)).
  reflexivity.
Defined.

(** X6. The token returned by a successful login, when it is not the empty
    string, is accepted from then on: after any further requests, a signup
    that carries it for an existing activity whose list does not hold the
    email succeeds and appends the email to that list. *)
Theorem login_token_authorizes_signup
    (uuid4 : string) (payload : gmap string jval) (st : state) (token : string)
    (rqs : list request) (name email : string)
    (A : gmap string jval) (P : list jval) :
  fst (admin_login uuid4 payload st) = TokenBody token →
  token ≠ "" →
  let st1 := run rqs (snd (admin_login uuid4 payload st)) in
  activities st1 !! name = Some A →
  A !! "participants" = Some (JArr P) →
  py_in email (JArr P) = Some false →
  let r := signup_for_activity name email (Some token) st1 in
  status_of (fst r) = 200%Z ∧
  participants_of (activities (snd r)) name = py_append email P.
Proof.
  intros Hlogin Hne. cbn zeta. intros HA HP [= Hin].
  assert (Htok : token_rejected (Some token)
                   (_teacher_sessions (snd (admin_login uuid4 payload st)))
                 = false).
  { apply token_rejected_false. exists token. do 2 (split; [done|]).
    destruct (admin_login_cases uuid4 payload st)
      as [[_ E]|[(_ & _ & _ & E)|(_ & _ & _ & E)]]; rewrite E in Hlogin |- *;
      try discriminate Hlogin.
    injection Hlogin as <-. cbn [snd set_sessions _teacher_sessions].
    rewrite lookup_insert_eq. by eexists. }
  apply (run_keeps_token rqs) in Htok.
  rewrite (signup_appends _ name email (Some token) A Htok HA P HP Hin).
  split; [done|]. cbn [snd committed activities].
  unfold participants_of, with_participants.
  rewrite lookup_insert_eq. cbn. by rewrite lookup_insert_eq.
Qed.

Lemma login_token_authorizes_signup_witness :
  let st0 := startup (Some sample_catalog) (Some sample_teachers) in
  let st1 := run [Signup "Chess Club" "b@x.edu" None; GetActivities]
               (snd (admin_login sample_uuid sample_login st0)) in
  let r := signup_for_activity "Chess Club" "new@student.edu"
             (Some sample_uuid) st1 in
  status_of (fst r) = 200%Z ∧
  participants_of (activities (snd r)) "Chess Club"
    = [JStr "a@x.edu"; JStr "new@student.edu"].
Proof.
  apply (login_token_authorizes_signup sample_uuid sample_login
           (startup (Some sample_catalog) (Some sample_teachers)) sample_uuid
           [Signup "Chess Club" "b@x.edu" None; GetActivities]
           "Chess Club" "new@student.edu" chess_club [JStr "a@x.edu"]);
    try reflexivity.
  discriminate.
Defined.

Lemma run_teachers_file rqs st :
  TEACHERS_FILE (run rqs st) = TEACHERS_FILE st.
Proof.
  revert st. induction rqs as [|rq rqs IH]; intros st; cbn [run]; [done|].
  by rewrite IH, handle_teachers_file.
Qed.

(** X7. No request writes the credential file; listing, signup and
    unregister leave the session registry as it is; login leaves the
    registry of activities and the catalog file as they are. *)
Theorem requests_touch_only_their_part :
  (∀ rqs st, TEACHERS_FILE (run rqs st) = TEACHERS_FILE st) ∧
  (∀ st name email tok,
     _teacher_sessions (snd (get_activities st)) = _teacher_sessions st ∧
     _teacher_sessions (snd (signup_for_activity name email tok st))
       = _teacher_sessions st ∧
     _teacher_sessions (snd (unregister_from_activity name email tok st))
       = _teacher_sessions st) ∧
  (∀ uuid4 payload st,
     activities (snd (admin_login uuid4 payload st)) = activities st ∧
     ACTIVITIES_FILE (snd (admin_login uuid4 payload st)) = ACTIVITIES_FILE st).
Proof.
  split; [|split].
  - apply run_teachers_file.
  - intros st name email tok. split; [done|].
    split; [apply signup_rest|apply unregister_rest].
  - intros uuid4 payload st. apply admin_login_activities.
Qed.

(** ** Restart *)

Lemma handle_file_loads rq st :
  load_activities (ACTIVITIES_FILE st) = activities st →
  load_activities (ACTIVITIES_FILE (snd (handle rq st)))
    = activities (snd (handle rq st)).
Proof.
  intros Hl.
  destruct (handle_cases rq st) as [(-> & -> & _)|(? & ? & ? & _ & _ & _ & ->)];
    done.
Qed.

Lemma run_file_loads rqs st :
  load_activities (ACTIVITIES_FILE st) = activities st →
  load_activities (ACTIVITIES_FILE (run rqs st)) = activities (run rqs st).
Proof.
  revert st. induction rqs as [|rq rqs IH]; intros st Hl; cbn [run]; [done|].
  by apply IH, handle_file_loads.
Qed.

Lemma token_rejected_empty tok : token_rejected tok ∅ = true.
Proof.
  apply token_rejected_true. destruct tok as [t|]; [|by left].
  right; right. exists t. split; [done|]. apply lookup_empty.
Qed.

(** X8. A process started from the files, after any sequence of requests,
    can be started again from the files it leaves behind: the registry of
    activities is the same, with or without a catalog file at the first
    start, while every session is gone, so that any token, also one that
    was accepted before, is then answered with 401. *)
Theorem restart_keeps_registry_drops_sessions
    (afile : option (gmap string (gmap string jval)))
    (tfile : option (gmap string (list (gmap string string))))
    (rqs : list request) :
  let st := run rqs (startup afile tfile) in
  activities (restart st) = activities st ∧
  TEACHERS_FILE (restart st) = tfile ∧
  ∀ name email tok,
    status_of (fst (signup_for_activity name email tok (restart st))) = 401%Z ∧
    status_of (fst (unregister_from_activity name email tok (restart st)))
      = 401%Z.
Proof.
  cbn zeta. split; [|split].
  - unfold restart, startup at 1. cbn [activities].
    by apply run_file_loads.
  - unfold restart, startup at 1. cbn [TEACHERS_FILE].
    by rewrite run_teachers_file.
  - intros name email tok. split.
    + apply signup_status_401, token_rejected_empty.
    + apply unregister_status_401, token_rejected_empty.
Qed.

(** X9. When no catalog file exists at start, the registry is empty and
    stays empty and the file is never created, whatever requests follow:
    the listing is the empty mapping. *)
Theorem missing_catalog_stays_missing
    (tfile : option (gmap string (list (gmap string string))))
    (rqs : list request) :
  let st := run rqs (startup None tfile) in
  activities st = ∅ ∧
  ACTIVITIES_FILE st = None ∧
  fst (get_activities st) = ActivitiesBody ∅.
Proof.
  cbn zeta.
  assert (H : ∀ st, activities st = ∅ ∧ ACTIVITIES_FILE st = None →
                    activities (run rqs st) = ∅ ∧
                    ACTIVITIES_FILE (run rqs st) = None).
  { induction rqs as [|rq rqs IH]; intros st [Ha Hf]; cbn [run]; [done|].
    apply IH.
    destruct (handle_cases rq st)
      as [(-> & -> & _)|(name & A & l & _ & HA & _ & _)]; [done|].
    rewrite Ha, lookup_empty in HA. discriminate. }
  destruct (H (startup None tfile)) as [Ha Hf]; [done|].
  unfold get_activities. cbn [fst]. by rewrite Ha, Hf.
Qed.

(** ** Login without credentials on file *)

(** X10. When the credential file is missing, has no [teachers] entry or
    lists no teacher, no login succeeds: the answer is 400 or 401 and the
    state, session registry included, is unchanged. *)
Theorem login_without_teachers_fails
    (uuid4 : string) (payload : gmap string jval) (st : state) :
  load_teachers (TEACHERS_FILE st) = [] →
  snd (admin_login uuid4 payload st) = st ∧
  (status_of (fst (admin_login uuid4 payload st)) = 400%Z ∨
   status_of (fst (admin_login uuid4 payload st)) = 401%Z).
Proof.
  intros Hnone.
  destruct (admin_login_cases uuid4 payload st)
    as [[_ ->]|[(_ & _ & (t & Ht & _) & _)|(_ & _ & _ & ->)]].
  - split; [done|by left].
  - rewrite Hnone in Ht. by apply elem_of_nil in Ht.
  - split; [done|by right].
Qed.

Lemma login_without_teachers_fails_witness :
  let st := startup (Some sample_catalog) None in
  snd (admin_login sample_uuid sample_login st) = st ∧
  (status_of (fst (admin_login sample_uuid sample_login st)) = 400%Z ∨
   status_of (fst (admin_login sample_uuid sample_login st)) = 401%Z).
Proof.
  apply (login_without_teachers_fails sample_uuid sample_login
           (startup (Some sample_catalog) None)).
  reflexivity.
Defined.

(** ** Repeating a request *)

(** X11. After a signup that succeeded, the same signup sent again with
    an accepted token is answered with 400 and changes nothing. *)
Theorem repeated_signup_is_400
    (st : state) (name email : string) (tok1 tok2 : option string) :
  status_of (fst (signup_for_activity name email tok1 st)) = 200%Z →
  token_rejected tok2 (_teacher_sessions st) = false →
  let st1 := snd (signup_for_activity name email tok1 st) in
  signup_for_activity name email tok2 st1 =
    (HTTPException 400 "Student is already signed up", st1).
Proof.
  intros Hs Htok2. cbn zeta.
  destruct (signup_cases st name email tok1)
    as [[Hne _]|(A & P & HA & HP & Hin & ->)]; [done|]. cbn [snd].
  apply (signup_duplicate _ name email tok2
           (<["participants" := JArr (py_append email P)]> A)).
  - done.
  - unfold committed, with_participants; cbn [activities].
    apply lookup_insert_eq.
  - unfold py_get_default. rewrite lookup_insert_eq. apply py_in_append.
Qed.

Lemma repeated_signup_is_400_witness :
  let st1 := snd (signup_for_activity "Art Club" "z@x.edu" (Some sample_uuid)
                    sample_state) in
  signup_for_activity "Art Club" "z@x.edu" (Some sample_uuid) st1 =
    (HTTPException 400 "Student is already signed up", st1).
Proof.
  apply (repeated_signup_is_400 sample_state "Art Club" "z@x.edu"
           (Some sample_uuid) (Some sample_uuid)); reflexivity.
Defined.

(** ** The list of participants under a mutation *)

Section OtherParticipants.
Implicit Types (email e : string) (l P : list jval).

Lemma others_app email l l' :
  others email (l ++ l') = (others email l ++ others email l')%list.
Proof.
  induction l as [|x l IH]; cbn [others app]; [done|].
  destruct (eq_str email x); [done|]. cbn [app]. by rewrite IH.
Qed.

Lemma others_append email l : others email (py_append email l) = others email l.
Proof.
  unfold py_append. rewrite others_app. cbn [others].
  rewrite eq_str_refl. apply app_nil_r.
Qed.

Lemma others_remove email l l' :
  py_remove email l = Some l' → others email l' = others email l.
Proof.
  revert l'. induction l as [|x l IH]; intros l'; cbn [py_remove others];
    [discriminate|].
  destruct (eq_str email x) eqn:Hx; [by intros [= <-]|].
  destruct (py_remove email l) as [r|]; [|discriminate].
  intros [= <-]. cbn [others]. rewrite Hx. by rewrite (IH r).
Qed.

Lemma occurrences_remove_S email l l' :
  py_remove email l = Some l' →
  occurrences email l = S (occurrences email l') ∧ length l = S (length l').
Proof.
  revert l'. induction l as [|x l IH]; intros l'; cbn [py_remove];
    [discriminate|].
  destruct (eq_str email x) eqn:Hx.
  - intros [= <-]. cbn [occurrences length]. by rewrite Hx.
  - destruct (py_remove email l) as [r|]; [|discriminate].
    intros [= <-]. destruct (IH r eq_refl) as [Ho Hl].
    cbn [occurrences length]. rewrite Hx, Ho, Hl. done.
Qed.

Lemma others_id email l : occurrences email l = 0 → others email l = l.
Proof.
  induction l as [|x l IH]; cbn [occurrences others]; [done|].
  destruct (eq_str email x); [discriminate|].
  rewrite Nat.add_0_l. intros H. by rewrite IH.
Qed.

Lemma others_free email l : existsb (eq_str email) (others email l) = false.
Proof.
  induction l as [|x l IH]; cbn [others existsb]; [done|].
  destruct (eq_str email x) eqn:Hx; [done|]. cbn [existsb]. by rewrite Hx, IH.
Qed.

Lemma py_remove_once email l :
  occurrences email l = 1 → py_remove email l = Some (others email l).
Proof.
  induction l as [|x l IH]; cbn [occurrences py_remove others]; [discriminate|].
  destruct (eq_str email x).
  - intros [= H0]. by rewrite others_id.
  - rewrite Nat.add_0_l. intros H1. by rewrite IH.
Qed.

Lemma others_permutation email l :
  occurrences email l = 1 → py_append email (others email l) ≡ₚ l.
Proof.
  unfold py_append.
  induction l as [|x l IH]; cbn [occurrences others]; [discriminate|].
  destruct (eq_str email x) eqn:Hx.
  - intros [= H0]. rewrite others_id by done.
    apply eq_str_true in Hx as ->. symmetry. apply Permutation_cons_append.
  - rewrite Nat.add_0_l. intros H1. cbn [app]. by rewrite IH.
Qed.
End OtherParticipants.

Lemma participants_of_committed st name A l :
  participants_of (activities (committed st name A l)) name = l.
Proof.
  unfold participants_of, committed, with_participants; cbn [activities].
  rewrite lookup_insert_eq. cbn. by rewrite lookup_insert_eq.
Qed.

Lemma participants_of_default st name A P :
  activities st !! name = Some A →
  py_get_default A "participants" (JArr []) = JArr P →
  participants_of (activities st) name = P.
Proof.
  intros HA HP. unfold participants_of, py_get_default in *. rewrite HA. cbn.
  destruct (A !! "participants") as [v|]; cbn [from_option id] in HP.
  - by subst v.
  - by injection HP.
Qed.

Lemma participants_of_list st name A P :
  activities st !! name = Some A →
  A !! "participants" = Some (JArr P) →
  participants_of (activities st) name = P.
Proof.
  intros HA HP. apply (participants_of_default st name A P HA).
  unfold py_get_default. by rewrite HP.
Qed.

(** X12. A successful signup or unregister of an email leaves the other
    participants of the activity as they were, in the same order: nobody
    else is added, dropped or moved. *)
Theorem mutation_keeps_other_participants
    (st : state) (name email : string) (tok : option string) :
  (status_of (fst (signup_for_activity name email tok st)) = 200%Z →
   others email
     (participants_of
        (activities (snd (signup_for_activity name email tok st))) name)
   = others email (participants_of (activities st) name)) ∧
  (status_of (fst (unregister_from_activity name email tok st)) = 200%Z →
   others email
     (participants_of
        (activities (snd (unregister_from_activity name email tok st))) name)
   = others email (participants_of (activities st) name)).
Proof.
  split; intros Hs.
  - destruct (signup_cases st name email tok)
      as [[Hne _]|(A & P & HA & HP & Hin & ->)]; [done|]. cbn [snd].
    rewrite participants_of_committed, (participants_of_default st name A P)
      by done.
    apply others_append.
  - destruct (unregister_cases st name email tok)
      as [[Hne _]|(A & P & P' & HA & HP & Hrm & ->)]; [done|]. cbn [snd].
    rewrite participants_of_committed, (participants_of_list st name A P)
      by done.
    by apply others_remove.
Qed.

Lemma mutation_keeps_other_participants_witness :
  others "a@x.edu"
    (participants_of
       (activities (snd (unregister_from_activity "Drama Club" "a@x.edu"
                           (Some sample_uuid) duplicate_state))) "Drama Club")
  = others "a@x.edu" (participants_of (activities duplicate_state) "Drama Club").
Proof.
  apply (mutation_keeps_other_participants duplicate_state "Drama Club"
           "a@x.edu" (Some sample_uuid)).
  reflexivity.
Defined.

(** X13. A successful signup finds no entry equal to the email and leaves
    exactly one, the list being one longer; a successful unregister removes
    exactly one entry equal to the email, the list being one shorter, so
    an email that the catalog holds twice is still enrolled afterwards. *)
Theorem mutation_changes_one_entry
    (st : state) (name email : string) (tok : option string) :
  (status_of (fst (signup_for_activity name email tok st)) = 200%Z →
   let before := participants_of (activities st) name in
   let after :=
     participants_of
       (activities (snd (signup_for_activity name email tok st))) name in
   occurrences email before = 0 ∧ occurrences email after = 1 ∧
   length after = S (length before)) ∧
  (status_of (fst (unregister_from_activity name email tok st)) = 200%Z →
   let before := participants_of (activities st) name in
   let after :=
     participants_of
       (activities (snd (unregister_from_activity name email tok st))) name in
   occurrences email before = S (occurrences email after) ∧
   length before = S (length after)).
Proof.
  split; intros Hs; cbn zeta.
  - destruct (signup_cases st name email tok)
      as [[Hne _]|(A & P & HA & HP & Hin & ->)]; [done|]. cbn [snd].
    rewrite participants_of_committed, (participants_of_default st name A P)
      by done.
    apply occurrences_zero in Hin. unfold py_append.
    rewrite occurrences_app, length_app. cbn [occurrences length].
    rewrite eq_str_refl. split; [done|]. split; lia.
  - destruct (unregister_cases st name email tok)
      as [[Hne _]|(A & P & P' & HA & HP & Hrm & ->)]; [done|]. cbn [snd].
    rewrite participants_of_committed, (participants_of_list st name A P)
      by done.
    by apply occurrences_remove_S.
Qed.

Lemma mutation_changes_one_entry_witness :
  let before := participants_of (activities duplicate_state) "Drama Club" in
  let after :=
    participants_of
      (activities (snd (unregister_from_activity "Drama Club" "a@x.edu"
                          (Some sample_uuid) duplicate_state))) "Drama Club" in
  occurrences "a@x.edu" before = S (occurrences "a@x.edu" after) ∧
  length before = S (length after).
Proof.
  apply (mutation_changes_one_entry duplicate_state "Drama Club" "a@x.edu"
           (Some sample_uuid)).
  reflexivity.
Defined.

(** X14. Unregistering an email that the list holds once and signing it up
    again, both with an accepted token, succeeds twice and moves the email
    to the end of the list: the other participants keep their order and
    the list holds the same entries as before. *)
Theorem unregister_signup_moves_to_end
    (st : state) (name email : string) (tok1 tok2 : option string)
    (A : gmap string jval) (P : list jval) :
  token_rejected tok1 (_teacher_sessions st) = false →
  token_rejected tok2 (_teacher_sessions st) = false →
  activities st !! name = Some A →
  A !! "participants" = Some (JArr P) →
  occurrences email P = 1 →
  let r1 := unregister_from_activity name email tok1 st in
  let r2 := signup_for_activity name email tok2 (snd r1) in
  status_of (fst r1) = 200%Z ∧ status_of (fst r2) = 200%Z ∧
  participants_of (activities (snd r2)) name = py_append email (others email P) ∧
  participants_of (activities (snd r2)) name ≡ₚ P.
Proof.
  intros Htok1 Htok2 HA HP Hone. cbn zeta.
  assert (Hin : existsb (eq_str email) P = true).
  { destruct (existsb (eq_str email) P) eqn:E; [done|].
    apply occurrences_zero in E. congruence. }
  destruct (unregister_removes st name email tok1 A Htok1 HA P HP Hin)
    as (P' & HP' & ->).
  rewrite py_remove_once in HP' by done. injection HP' as <-.
  cbn [fst snd status_of].
  set (A1 := <["participants" := JArr (others email P)]> A).
  assert (HA1 : activities (committed st name A (others email P)) !! name
                = Some A1)
    by (unfold committed, with_participants; cbn [activities];
        apply lookup_insert_eq).
  assert (HP1 : A1 !! "participants" = Some (JArr (others email P)))
    by apply lookup_insert_eq.
  rewrite (signup_appends (committed st name A (others email P)) name email
             tok2 A1 Htok2 HA1 _ HP1 (others_free email P)).
  cbn [fst snd status_of]. rewrite participants_of_committed.
  do 3 (split; [done|]). by apply others_permutation.
Qed.

Lemma unregister_signup_moves_to_end_witness :
  let r1 := unregister_from_activity "Chess Club" "a@x.edu" (Some sample_uuid)
              (snd (signup_for_activity "Chess Club" "b@x.edu"
                      (Some sample_uuid) sample_state)) in
  let r2 := signup_for_activity "Chess Club" "a@x.edu" (Some sample_uuid)
              (snd r1) in
  status_of (fst r1) = 200%Z ∧ status_of (fst r2) = 200%Z ∧
  participants_of (activities (snd r2)) "Chess Club"
    = py_append "a@x.edu" (others "a@x.edu" [JStr "a@x.edu"; JStr "b@x.edu"]) ∧
  participants_of (activities (snd r2)) "Chess Club"
    ≡ₚ [JStr "a@x.edu"; JStr "b@x.edu"].
Proof.
  apply (unregister_signup_moves_to_end
           (snd (signup_for_activity "Chess Club" "b@x.edu"
                   (Some sample_uuid) sample_state))
           "Chess Club" "a@x.edu" (Some sample_uuid) (Some sample_uuid)
           (<["participants" := JArr [JStr "a@x.edu"; JStr "b@x.edu"]]>
              chess_club)
           [JStr "a@x.edu"; JStr "b@x.edu"]);
    reflexivity.
Defined.

(** X15. In a registry where each email occurs at most once per activity,
    after an unregister that succeeded the same unregister sent again
    with an accepted token is answered with 400 and changes nothing. *)
Theorem repeated_unregister_is_400
    (st : state) (name email : string) (tok1 tok2 : option string) :
  at_most_once (activities st) →
  status_of (fst (unregister_from_activity name email tok1 st)) = 200%Z →
  token_rejected tok2 (_teacher_sessions st) = false →
  let st1 := snd (unregister_from_activity name email tok1 st) in
  unregister_from_activity name email tok2 st1 =
    (HTTPException 400 "Student is not signed up for this activity", st1).
Proof.
  intros Hinv Hs Htok2. cbn zeta.
  destruct (unregister_cases st name email tok1)
    as [[Hne _]|(A & P & P' & HA & HP & Hrm & ->)]; [done|]. cbn [snd].
  apply (unregister_absent _ name email tok2 (<["participants" := JArr P']> A)).
  - done.
  - unfold committed, with_participants; cbn [activities].
    apply lookup_insert_eq.
  - unfold py_get_default. rewrite lookup_insert_eq. cbn [from_option id py_in].
    f_equal. apply occurrences_zero.
    destruct (occurrences_remove_S email P P' Hrm) as [Ho _].
    pose proof (Hinv name A P email HA HP). lia.
Qed.

Lemma repeated_unregister_is_400_witness :
  let st1 := snd (unregister_from_activity "Chess Club" "a@x.edu"
                    (Some sample_uuid) sample_state) in
  unregister_from_activity "Chess Club" "a@x.edu" (Some sample_uuid) st1 =
    (HTTPException 400 "Student is not signed up for this activity", st1).
Proof.
  apply (repeated_unregister_is_400 sample_state "Chess Club" "a@x.edu"
           (Some sample_uuid) (Some sample_uuid)).
  - apply roster_unique_sound. vm_compute. reflexivity.
  - reflexivity.
  - reflexivity.
Defined.

(** ** Requests aimed at different activities *)

(** What a mutating request does depends only on the session registry and
    on the record it is aimed at: it either leaves the state alone or
    commits a list [l] for a record [A], the same in every state that
    agrees on these two. *)
Lemma mutation_shape rq st name :
  target rq = Some name →
  ∃ effect : option (gmap string jval * list jval),
    ∀ st', _teacher_sessions st' = _teacher_sessions st →
           activities st' !! name = activities st !! name →
           fst (handle rq st') = fst (handle rq st) ∧
           snd (handle rq st') =
             match effect with
             | None => st'
             | Some (A, l) => committed st' name A l
             end.
Proof.
  intros Ht.
  destruct rq as [|u p|a e t|a e t]; try discriminate Ht;
    injection Ht as ->; cbn [handle].
  - unfold signup_for_activity.
    destruct (token_rejected t (_teacher_sessions st)) eqn:Htok;
      [exists None; intros st' -> _; by rewrite Htok|].
    destruct (activities st !! name) as [A|] eqn:HA;
      [|exists None; intros st' -> ->; by rewrite Htok].
    destruct (py_in e (py_get_default A "participants" (JArr [])))
      as [[]|] eqn:Hin;
      [exists None; intros st' -> ->; by rewrite Htok, Hin| |
       exists None; intros st' -> ->; by rewrite Htok, Hin].
    unfold py_get_default, setdefault in *.
    destruct (A !! "participants") as [v|] eqn:HP; cbn [from_option id] in *.
    + destruct v; try discriminate Hin;
        try (exists None; intros st' Hs Hl; rewrite Hs, Hl, Htok;
             unfold py_get_default; rewrite HP; cbn [from_option id];
             rewrite Hin; split; [done|]; cbn [snd];
             apply set_activities_same; congruence).
      exists (Some (A, py_append e l)). intros st' Hs Hl.
      rewrite Hs, Hl, Htok. unfold py_get_default. rewrite HP.
      cbn [from_option id]. by rewrite Hin.
    + exists (Some (A, [JStr e])). intros st' Hs Hl.
      rewrite Hs, Hl, Htok. unfold py_get_default. rewrite HP.
      cbn [from_option id]. rewrite Hin. split; [done|]. cbn [snd].
      unfold committed, with_participants, save_activities, set_activities,
        py_append.
      cbn [activities _teacher_sessions ACTIVITIES_FILE TEACHERS_FILE app].
      by rewrite !insert_insert_eq.
  - unfold unregister_from_activity.
    destruct (token_rejected t (_teacher_sessions st)) eqn:Htok;
      [exists None; intros st' -> _; by rewrite Htok|].
    destruct (activities st !! name) as [A|] eqn:HA;
      [|exists None; intros st' -> ->; by rewrite Htok].
    destruct (py_in e (py_get_default A "participants" (JArr [])))
      as [[]|] eqn:Hin;
      [|exists None; intros st' -> ->; by rewrite Htok, Hin|
       exists None; intros st' -> ->; by rewrite Htok, Hin].
    destruct (A !! "participants") as [v|] eqn:HP;
      [|exists None; intros st' -> ->; by rewrite Htok, Hin, HP].
    destruct v;
      try (exists None; intros st' -> ->; by rewrite Htok, Hin, HP).
    destruct (py_remove e l) as [l'|] eqn:Hrm;
      [|exists None; intros st' -> ->; by rewrite Htok, Hin, HP, Hrm].
    exists (Some (A, l')). intros st' -> ->. by rewrite Htok, Hin, HP, Hrm.
Qed.

Lemma committed_commute st n1 A1 l1 n2 A2 l2 :
  n1 ≠ n2 →
  committed (committed st n1 A1 l1) n2 A2 l2 =
  committed (committed st n2 A2 l2) n1 A1 l1.
Proof.
  intros Hne. unfold committed, with_participants.
  cbn [activities _teacher_sessions TEACHERS_FILE].
  by rewrite (insert_insert_ne _ n2 n1) by done.
Qed.

Lemma committed_other st n1 A1 l1 n2 :
  n1 ≠ n2 →
  _teacher_sessions (committed st n1 A1 l1) = _teacher_sessions st ∧
  activities (committed st n1 A1 l1) !! n2 = activities st !! n2.
Proof.
  intros Hne. split; [done|].
  unfold committed, with_participants; cbn [activities].
  by rewrite lookup_insert_ne.
Qed.

(** X16. Two mutating requests (signup or unregister) aimed at different
    activities can be served in either order: each gets the same answer
    and the final state, files included, is the same. *)
Theorem mutations_on_distinct_activities_commute
    (rq1 rq2 : request) (st : state) (n1 n2 : string) :
  target rq1 = Some n1 →
  target rq2 = Some n2 →
  n1 ≠ n2 →
  run [rq1; rq2] st = run [rq2; rq1] st ∧
  fst (handle rq1 (snd (handle rq2 st))) = fst (handle rq1 st) ∧
  fst (handle rq2 (snd (handle rq1 st))) = fst (handle rq2 st).
Proof.
  intros Ht1 Ht2 Hne. cbn [run].
  destruct (mutation_shape rq1 st n1 Ht1) as [f1 H1].
  destruct (mutation_shape rq2 st n2 Ht2) as [f2 H2].
  destruct (H1 st eq_refl eq_refl) as [_ E1].
  destruct (H2 st eq_refl eq_refl) as [_ E2].
  assert (K1 : _teacher_sessions (snd (handle rq1 st)) = _teacher_sessions st ∧
               activities (snd (handle rq1 st)) !! n2 = activities st !! n2).
  { rewrite E1. destruct f1 as [[A1 l1]|]; [by apply committed_other|done]. }
  assert (K2 : _teacher_sessions (snd (handle rq2 st)) = _teacher_sessions st ∧
               activities (snd (handle rq2 st)) !! n1 = activities st !! n1).
  { rewrite E2. destruct f2 as [[A2 l2]|]; [by apply committed_other|done]. }
  destruct (H2 _ (proj1 K1) (proj2 K1)) as [R2 F2].
  destruct (H1 _ (proj1 K2) (proj2 K2)) as [R1 F1].
  split; [|by split].
  rewrite F2, F1, E1, E2.
  destruct f1 as [[A1 l1]|], f2 as [[A2 l2]|]; try done.
  by apply committed_commute.
Qed.

Lemma mutations_on_distinct_activities_commute_witness :
  let rq1 := Signup "Art Club" "z@x.edu" (Some sample_uuid) in
  let rq2 := Unregister "Chess Club" "a@x.edu" (Some sample_uuid) in
  run [rq1; rq2] sample_state = run [rq2; rq1] sample_state ∧
  fst (handle rq1 (snd (handle rq2 sample_state))) = fst (handle rq1 sample_state) ∧
  fst (handle rq2 (snd (handle rq1 sample_state))) = fst (handle rq2 sample_state).
Proof.
  apply (mutations_on_distinct_activities_commute
           (Signup "Art Club" "z@x.edu" (Some sample_uuid))
           (Unregister "Chess Club" "a@x.edu" (Some sample_uuid))
           sample_state "Art Club" "Chess Club"); [reflexivity..|].
  discriminate.
Defined.
